(** * Minimax LLM adapter ([langchain_community/llms/minimax.py])

    A shallow embedding of the Minimax endpoint client and model adapter,
    and the properties of its request building, response unwrapping and
    stop-token post-processing.

    Python objects live in an explicit store: dictionaries, clients and
    model instances are reached through references, so that the in-place
    updates of [_call] ([request["messages"] = ...], [request.update])
    and the copy made by the dict display in [_default_params] are
    modelled as what they are.  Exceptions are an explicit result. *)

From Stdlib Require Import ZArith QArith.
From stdpp Require Import base option list strings gmap pretty.

Set Warnings "-register-all".

Open Scope string_scope.
Open Scope list_scope.
Open Scope Z_scope.

(** ** Python values *)

(** Values that travel through the adapter: JSON data and keyword
    arguments.  A float is carried as the rational number its decimal
    literal denotes; the adapter never computes on floats, it only
    forwards them and compares a status code with zero.  A dict is the
    list of its items in insertion order, without duplicate keys. *)
Inductive value : Type :=
| VNone
| VBool (b : bool)
| VInt (z : Z)
| VFloat (q : Q)
| VStr (s : string)
| VList (l : list value)
| VDict (d : list (string * value)).

Abbreviation dict := (list (string * value)).

Module Dict.

(** [d.get(k)]; [k in d] is [is_Some (get k d)] *)
Fixpoint get (k : string) (d : dict) : option value :=
  match d with
  | [] => None
  | (k', v) :: d' => if String.eqb k k' then Some v else get k d'
  end.

Definition keys (d : dict) : list string := map fst d.

(** [d[k] = v]: an existing key keeps its position, a new key goes
    last. *)
Fixpoint set (k : string) (v : value) (d : dict) : dict :=
  match d with
  | [] => [(k, v)]
  | (k', v') :: d' =>
      if String.eqb k k' then (k', v) :: d' else (k', v') :: set k v d'
  end.

(** [d.update(other)], and [**other] inside a dict display: the items
    of [other] are stored one by one, in order. *)
Definition update (d other : dict) : dict :=
  fold_left (fun acc kv => set kv.1 kv.2 acc) other d.

(** A dict display [{k1: v1, ..., **rest}] stores its items left to
    right into an empty dict. *)
Definition display (items : dict) : dict := update [] items.

End Dict.

(** ** Exceptions and results *)

Inductive exn : Type :=
| ValueError (msg : string)
| KeyError (key : string)
| TypeError (what : string)
| AttributeError (what : string)
| ValidationError (fields : list string)
| JSONDecodeError
| RequestException (what : string)
| ConfigurationError (key env_key : string).

Inductive res (A : Type) : Type :=
| Ok (a : A)
| Raise (e : exn).
Arguments Ok {A} a.
Arguments Raise {A} e.

#[global] Instance res_ret : MRet res := λ A a, Ok a.
#[global] Instance res_bind : MBind res :=
  λ A B f r, match r with Ok a => f a | Raise e => Raise e end.

(** [v[k]] on an arbitrary value: only a dict is indexed by a string
    key. *)
Definition py_getitem (v : value) (k : string) : res value :=
  match v with
  | VDict d =>
      match Dict.get k d with
      | Some x => Ok x
      | None => Raise (KeyError k)
      end
  | _ => Raise (TypeError "subscript")
  end.

(** [v > 0] *)
Definition py_gt_zero (v : value) : res bool :=
  match v with
  | VInt z => Ok (0 <? z)
  | VBool b => Ok b
  | VFloat q => Ok (0 <? Qnum q)
  | _ => Raise (TypeError ">")
  end.

(** ** Objects and the store *)

Abbreviation loc := positive.

Record SecretStr : Type := { get_secret_value : string }.

(** A credential as the caller may pass it: a plain [str] or an already
    wrapped [SecretStr]. *)
Inductive credential : Type :=
| Plain (s : string)
| Secret (s : SecretStr).

(** [convert_to_secret_str], and the coercion of a [SecretStr] field. *)
Definition convert_to_secret_str (c : credential) : SecretStr :=
  match c with
  | Plain s => {| get_secret_value := s |}
  | Secret s => s
  end.

(** class [_MinimaxEndpointClient] *)
Record _MinimaxEndpointClient : Type := {
  host : string;
  group_id : string;
  api_key : SecretStr;
  api_url : string
}.

(** class [MinimaxCommon] (and [Minimax], which adds no field).  The
    client and the [model_kwargs] dict are objects of their own, held
    by reference.  [_client] is declared with an underscore name on a
    pydantic model: it is a private attribute, not a field, and is
    unset ([None] here) until something assigns it. *)
Record MinimaxCommon : Type := {
  _client : option loc;
  model : string;
  max_tokens : Z;
  temperature : Q;
  top_p : Q;
  model_kwargs : loc;
  minimax_api_host : option string;
  minimax_group_id : option string;
  minimax_api_key : option SecretStr
}.

Inductive object : Type :=
| ODict (d : dict)
| OClient (c : _MinimaxEndpointClient)
| OMinimax (m : MinimaxCommon).

(** What [requests.post(url, headers=..., json=...)] puts on the wire,
    and the attributes of the [Response] that the client reads.
    [json] is [None] when the body is not valid JSON. *)
Record http_request : Type := {
  req_url : string;
  req_headers : list (string * string);
  req_json : dict
}.

Record Response : Type := {
  ok : bool;
  status_code : Z;
  text : string;
  json : option value
}.

Record world : Type := {
  heap : gmap loc object;
  environ : gmap string string;
  wire : list http_request
}.

Definition with_heap (w : world) (h : gmap loc object) : world :=
  {| heap := h; environ := environ w; wire := wire w |}.

Definition with_wire (w : world) (sent : list http_request) : world :=
  {| heap := heap w; environ := environ w; wire := sent |}.

(** ** Computations: store passing with exceptions *)

Definition M (A : Type) : Type := world → res A * world.

Definition ret {A} (a : A) : M A := λ w, (Ok a, w).

Definition raise {A} (e : exn) : M A := λ w, (Raise e, w).

Definition bind {A B} (m : M A) (k : A → M B) : M B :=
  λ w, match m w with
       | (Ok a, w') => k a w'
       | (Raise e, w') => (Raise e, w')
       end.

Definition lift {A} (r : res A) : M A := λ w, (r, w).

Notation "x <- m ;; k" := (bind m (λ x, k))
  (at level 100, m at next level, right associativity).
Notation "m ;;; k" := (bind m (λ _, k))
  (at level 100, right associativity).

(** Object creation takes the next free reference. *)
Definition alloc (o : object) : M loc :=
  λ w, let l := fresh (dom (heap w)) in
       (Ok l, with_heap w (<[l := o]> (heap w))).

Definition load (l : loc) : M object :=
  λ w, match heap w !! l with
       | Some o => (Ok o, w)
       | None => (Raise (AttributeError "dangling reference"), w)
       end.

Definition store (l : loc) (o : object) : M unit :=
  λ w, (Ok (), with_heap w (<[l := o]> (heap w))).

Definition load_dict (l : loc) : M dict :=
  o <- load l ;;
  match o with
  | ODict d => ret d
  | _ => raise (TypeError "dict expected")
  end.

Definition load_client (l : loc) : M _MinimaxEndpointClient :=
  o <- load l ;;
  match o with
  | OClient c => ret c
  | _ => raise (AttributeError "post")
  end.

Definition load_minimax (l : loc) : M MinimaxCommon :=
  o <- load l ;;
  match o with
  | OMinimax m => ret m
  | _ => raise (AttributeError "Minimax")
  end.

(** [d[k] = v] and [d.update(other)] on a dict object *)
Definition setitem (l : loc) (k : string) (v : value) : M unit :=
  d <- load_dict l ;; store l (ODict (Dict.set k v d)).

Definition update (l : loc) (other : dict) : M unit :=
  d <- load_dict l ;; store l (ODict (Dict.update d other)).

Definition getenv (name : string) : M (option string) :=
  λ w, (Ok (environ w !! name), w).

(** ** The endpoint client *)

(** The keyword arguments of the client constructor, as the
    [mode="before"] validator sees them: a dict in which any of the
    four keys may be missing.  For [api_url] a key that is missing
    ([None]) differs from a key that is passed as [None]
    ([Some None]). *)
Record client_values : Type := {
  cv_host : option string;
  cv_group_id : option string;
  cv_api_key : option credential;
  cv_api_url : option (option string)
}.

(** [values["host"]] and [values["group_id"]] raise [KeyError] on a
    missing key. *)
Definition set_api_url (values : client_values) : res client_values :=
  match cv_api_url values with
  | None =>
      match cv_host values with
      | None => Raise (KeyError "host")
      | Some host =>
          match cv_group_id values with
          | None => Raise (KeyError "group_id")
          | Some group_id =>
              let api_url :=
                host +:+ "/v1/text/chatcompletion?GroupId=" +:+ group_id in
              Ok {| cv_host := cv_host values; cv_group_id := cv_group_id values;
                    cv_api_key := cv_api_key values;
                    cv_api_url := Some (Some api_url) |}
          end
      end
  | Some _ => Ok values
  end.

(** The fields that fail validation, in declaration order: the four
    fields are required, and [api_url] must be a string. *)
Definition invalid_client_fields (values : client_values) : list string :=
  (match cv_host values with Some _ => [] | None => ["host"] end)
  ++ (match cv_group_id values with Some _ => [] | None => ["group_id"] end)
  ++ (match cv_api_key values with Some _ => [] | None => ["api_key"] end)
  ++ (match cv_api_url values with Some (Some _) => [] | _ => ["api_url"] end).

(** [_MinimaxEndpointClient(host=..., api_key=..., group_id=...)]: the
    validator runs, then the four fields are validated, then the new
    object is created.  An exception of the validator other than a
    [ValueError] leaves the constructor as it is. *)
Definition new_MinimaxEndpointClient (values : client_values) : M loc :=
  values <- lift (set_api_url values) ;;
  match cv_host values, cv_group_id values, cv_api_key values, cv_api_url values with
  | Some host, Some group_id, Some api_key, Some (Some api_url) =>
      alloc (OClient {| host := host; group_id := group_id;
                        api_key := convert_to_secret_str api_key;
                        api_url := api_url |})
  | _, _, _, _ => raise (ValidationError (invalid_client_fields values))
  end.

(** [response.json()] *)
Definition response_json (response : Response) : res value :=
  match json response with
  | Some j => Ok j
  | None => Raise JSONDecodeError
  end.

Section Client.

(** Python's [str()] on a JSON value, as f-strings apply it, and the
    network: [requests.post] answers a request, given what went over
    the wire before, with a response or a raised exception. *)
Variable py_str : value → string.
Variable requests_post : list http_request → http_request → res Response.

Definition send (url : string) (headers : list (string * string))
    (body : dict) : M Response :=
  λ w, let rq := {| req_url := url; req_headers := headers; req_json := body |} in
       (requests_post (wire w) rq, with_wire w (wire w ++ [rq])).

(** [response.json()["base_resp"][field]] *)
Definition base_resp (response : Response) (field : string) : M value :=
  j <- lift (response_json response) ;;
  b <- lift (py_getitem j "base_resp") ;;
  lift (py_getitem b field).

Definition post (self : loc) (request : loc) : M value :=
  c <- load_client self ;;
  let headers :=
    [("Authorization", "Bearer " +:+ get_secret_value (api_key c))] in
  body <- load_dict request ;;
  response <- send (api_url c) headers body ;;
  if negb (ok response) then
    raise (ValueError ("HTTP " +:+ pretty (status_code response)
                       +:+ " error: " +:+ text response))
  else
    code <- base_resp response "status_code" ;;
    positive <- lift (py_gt_zero code) ;;
    if positive : bool then
      code <- base_resp response "status_code" ;;
      msg <- base_resp response "status_msg" ;;
      raise (ValueError ("API " +:+ py_str code +:+ " error: " +:+ py_str msg))
    else
      j <- lift (response_json response) ;;
      lift (py_getitem j "reply").

End Client.

(** ** The model adapter *)

(** Modelled from the spec: [langchain_core.utils.get_from_dict_or_env]
    is a library function outside the sources.  Spec section 9 gives it
    as [resolve(explicit, envVarName, default?) -> value | error],
    section 4.2 as: a value not explicitly supplied is resolved from the
    named environment variable, then from the default, and is
    unresolvable otherwise.  [of_env] turns the environment's string
    into the type of the explicit value. *)
Definition get_from_dict_or_env {A} (of_env : string → A)
    (explicit : option A) (key env_key : string) (default : option A) : M A :=
  match explicit with
  | Some v => ret v
  | None =>
      e <- getenv env_key ;;
      match e, default with
      | Some s, _ => ret (of_env s)
      | None, Some v => ret v
      | None, None =>
          raise (ConfigurationError key env_key)
      end
  end.

(** The [values] dict of [validate_environment], keyed by field name.
    [pre_init] has filled in the declared defaults of the fields the
    caller left out, so the plain fields are always present; the
    credentials default to [None]. *)
Record values : Type := {
  val_model : string;
  val_max_tokens : Z;
  val_temperature : Q;
  val_top_p : Q;
  val_model_kwargs : dict;
  val_minimax_api_host : option string;
  val_minimax_group_id : option string;
  val_minimax_api_key : option credential;
  val__client : option loc
}.

(** The keyword arguments of [Minimax(...)] and the field defaults. *)
Record init_kwargs : Type := {
  kw_model : option string;
  kw_max_tokens : option Z;
  kw_temperature : option Q;
  kw_top_p : option Q;
  kw_model_kwargs : option dict;
  kw_minimax_api_host : option string;
  kw_minimax_group_id : option string;
  kw_minimax_api_key : option credential
}.

Definition pre_init (kw : init_kwargs) : values :=
  {| val_model := default "abab5.5-chat" (kw_model kw);
     val_max_tokens := default 256 (kw_max_tokens kw);
     val_temperature := default (7 # 10)%Q (kw_temperature kw);
     val_top_p := default (95 # 100)%Q (kw_top_p kw);
     val_model_kwargs := default [] (kw_model_kwargs kw);
     val_minimax_api_host := kw_minimax_api_host kw;
     val_minimax_group_id := kw_minimax_group_id kw;
     val_minimax_api_key := kw_minimax_api_key kw;
     val__client := None |}.

Definition validate_environment (values0 : values) : M values :=
  key <- get_from_dict_or_env Plain (val_minimax_api_key values0)
          "minimax_api_key" "MINIMAX_API_KEY" None ;;
  let api_key := convert_to_secret_str key in
  group_id <- get_from_dict_or_env id (val_minimax_group_id values0)
          "minimax_group_id" "MINIMAX_GROUP_ID" None ;;
  api_host <- get_from_dict_or_env id (val_minimax_api_host values0)
          "minimax_api_host" "MINIMAX_API_HOST" (Some "https://api.minimax.chat") ;;
  client <- new_MinimaxEndpointClient
          {| cv_host := Some api_host; cv_api_key := Some (Secret api_key);
             cv_group_id := Some group_id; cv_api_url := None |} ;;
  ret {| val_model := val_model values0;
         val_max_tokens := val_max_tokens values0;
         val_temperature := val_temperature values0;
         val_top_p := val_top_p values0;
         val_model_kwargs := val_model_kwargs values0;
         val_minimax_api_host := Some api_host;
         val_minimax_group_id := Some group_id;
         val_minimax_api_key := Some (Secret api_key);
         val__client := Some client |}.

(** [Minimax(...)]: defaults, the validator, then the instance is
    built from the validated values of its fields.  [_client] is not a
    field: the ["_client"] entry that the validator left in [values]
    is not looked at, and the private attribute stays unset. *)
Definition new_Minimax (kw : init_kwargs) : M loc :=
  vals <- validate_environment (pre_init kw) ;;
  kwargs <- alloc (ODict (val_model_kwargs vals)) ;;
  alloc (OMinimax
    {| _client := None;
       model := val_model vals;
       max_tokens := val_max_tokens vals;
       temperature := val_temperature vals;
       top_p := val_top_p vals;
       model_kwargs := kwargs;
       minimax_api_host := val_minimax_api_host vals;
       minimax_group_id := val_minimax_group_id vals;
       minimax_api_key := convert_to_secret_str <$> val_minimax_api_key vals |}).

(** The property [_default_params]: every read evaluates the dict
    display again and so builds a new dict; [**self.model_kwargs] reads
    the items of the instance's dict. *)
Definition _default_params (self : loc) : M loc :=
  m <- load_minimax self ;;
  kwargs <- load_dict (model_kwargs m) ;;
  alloc (ODict (Dict.display
    ([("model", VStr (model m));
      ("tokens_to_generate", VInt (max_tokens m));
      ("temperature", VFloat (temperature m));
      ("top_p", VFloat (top_p m))] ++ kwargs))).


Definition _llm_type : string := "minimax".

Section Adapter.

Variable py_str : value → string.
Variable requests_post : list http_request → http_request → res Response.

(** [langchain_community.llms.utils.enforce_stop_tokens] is imported,
    not defined, by the module: [_call] takes it as given. *)
Variable enforce_stop_tokens : value → list string → res value.

(** [Minimax._call]; [run_manager] is accepted and never used. *)
Definition _call (self : loc) (prompt : string)
    (stop : option (list string)) (kwargs : dict) : M value :=
  request <- _default_params self ;;
  setitem request "messages"
    (VList [VDict [("sender_type", VStr "USER"); ("text", VStr prompt)]]) ;;;
  update request kwargs ;;;
  m <- load_minimax self ;;
  client <- match _client m with
            | Some client => ret client
            | None => raise (AttributeError "_client")
            end ;;
  text <- post py_str requests_post client request ;;
  match stop with
  | Some stop => lift (enforce_stop_tokens text stop)
  | None => ret text
  end.

End Adapter.

(** ** Stop tokens *)

(** Modelled from the spec: [enforce_stop_tokens] lives in
    [langchain_community/llms/utils.py], which is not among the
    sources.  Spec section 4.2: the reply is scanned for the earliest
    occurring index of any stop string and truncated to end just before
    that index; with no occurrence the reply is returned unmodified;
    the smallest starting index wins, and on an exact tie the stop
    string met first in the stop list.  Section 9: occurrence is
    literal substring occurrence. *)
Definition closer (text : string) (best : option (nat * string)) (s : string)
    : option (nat * string) :=
  match String.index 0 s text, best with
  | Some i, Some (j, _) => if (i <? j)%nat then Some (i, s) else best
  | Some i, None => Some (i, s)
  | None, _ => best
  end.

Definition earliest_stop (text : string) (stop : list string)
    : option (nat * string) :=
  fold_left (closer text) stop None.

Definition truncate_at_stop (text : string) (stop : list string) : string :=
  match earliest_stop text stop with
  | Some (i, _) => String.substring 0 i text
  | None => text
  end.

(** The filter as [_call] applies it to the value that [post] returned;
    the spec defines it on reply strings only. *)
Definition enforce_stop_tokens (text : value) (stop : list string) : res value :=
  match text with
  | VStr s => Ok (VStr (truncate_at_stop s stop))
  | _ => Raise (TypeError "expected string")
  end.

(** ** Vocabulary of the properties *)

(** The two errors of [post] are [ValueError]s told apart by their
    message: the HTTP one carries the status code and the raw body, the
    API one the rendered [status_code] and [status_msg]. *)
Definition TransportError (code : Z) (body : string) : exn :=
  ValueError ("HTTP " +:+ pretty code +:+ " error: " +:+ body).

Definition ApplicationError (code msg : string) : exn :=
  ValueError ("API " +:+ code +:+ " error: " +:+ msg).

(** An instance of [py_str] for the examples: [str()] on [None], bools,
    ints and strings, the values whose rendering is a one-line rule.
    The examples render nothing else, and the empty string stands in
    for the rest. *)
Definition str_of_scalar (v : value) : string :=
  match v with
  | VNone => "None"
  | VBool true => "True"
  | VBool false => "False"
  | VInt z => pretty z
  | VStr s => s
  | _ => ""
  end.

(** A model instance in the store: [self] is a [Minimax] object whose
    [model_kwargs] reference leads to a dict and whose [_client] is set
    and leads to a client. *)
Definition instance_at (w : world) (self : loc) (m : MinimaxCommon)
    (kwargs : dict) (c : _MinimaxEndpointClient) : Prop :=
  heap w !! self = Some (OMinimax m)
  ∧ heap w !! model_kwargs m = Some (ODict kwargs)
  ∧ (∃ client, _client m = Some client ∧ heap w !! client = Some (OClient c))
  ∧ NoDup (Dict.keys kwargs).

(** The four items that [_default_params] takes from the fields. *)
Definition field_params (m : MinimaxCommon) : dict :=
  [("model", VStr (model m));
   ("tokens_to_generate", VInt (max_tokens m));
   ("temperature", VFloat (temperature m));
   ("top_p", VFloat (top_p m))].

(** The message list that [_call] stores under ["messages"]. *)
Definition user_messages (prompt : string) : value :=
  VList [VDict [("sender_type", VStr "USER"); ("text", VStr prompt)]].

(** The request that [post] puts on the wire for a client and a body. *)
Definition request_of (c : _MinimaxEndpointClient) (body : dict) : http_request :=
  {| req_url := api_url c;
     req_headers := [("Authorization", "Bearer " +:+ get_secret_value (api_key c))];
     req_json := body |}.



(** Resolution of one setting outside the store: the explicit value,
    else the environment's. *)
Definition resolved {A} (of_env : string → A) (explicit : option A)
    (env : option string) : option A :=
  match explicit with
  | Some v => Some v
  | None => of_env <$> env
  end.

(** The body that [_call] has built when it calls [post]. *)
Definition request_body (m : MinimaxCommon) (model_kwargs : dict)
    (prompt : string) (kwargs : dict) : dict :=
  Dict.update
    (Dict.set "messages" (user_messages prompt)
       (Dict.display (field_params m ++ model_kwargs)))
    kwargs.

(** What [post] makes of a response, as a function of the response
    alone. *)
Definition unwrap (py_str : value → string) (response : Response) : res value :=
  if ok response then
    j ← response_json response;
    b ← py_getitem j "base_resp";
    code ← py_getitem b "status_code";
    positive ← py_gt_zero code;
    if positive : bool then
      msg ← py_getitem b "status_msg";
      Raise (ApplicationError (py_str code) (py_str msg))
    else py_getitem j "reply"
  else Raise (TransportError (status_code response) (text response)).

(** Two dicts with the same keys in the same order, and the same
    values except possibly under [k]. *)
Definition same_but (k : string) (d1 d2 : dict) : Prop :=
  Forall2 (λ x y, x.1 = y.1 ∧ (x.1 ≠ k → x.2 = y.2)) d1 d2.

(** ** A concrete instance

    A usable instance, with the fields of the class docstring's
    example (only the two credentials passed, every other field at its
    default) and with [_client] assigned to a client for those
    credentials. *)
Definition empty_world : world := {| heap := ∅; environ := ∅; wire := [] |}.

Definition demo_kwargs : init_kwargs :=
  {| kw_model := None; kw_max_tokens := None; kw_temperature := None;
     kw_top_p := None; kw_model_kwargs := None; kw_minimax_api_host := None;
     kw_minimax_group_id := Some "my-group-id";
     kw_minimax_api_key := Some (Plain "my-api-key") |}.


Definition demo_client : _MinimaxEndpointClient :=
  {| host := "https://api.minimax.chat";
     group_id := "my-group-id";
     api_key := {| get_secret_value := "my-api-key" |};
     api_url := "https://api.minimax.chat/v1/text/chatcompletion?GroupId=my-group-id" |}.

Definition demo_model : MinimaxCommon :=
  {| _client := Some 1%positive; model := "abab5.5-chat"; max_tokens := 256;
     temperature := (7 # 10)%Q; top_p := (95 # 100)%Q;
     model_kwargs := 2%positive;
     minimax_api_host := Some "https://api.minimax.chat";
     minimax_group_id := Some "my-group-id";
     minimax_api_key := Some {| get_secret_value := "my-api-key" |} |}.

Definition demo_world : world :=
  {| heap := <[3%positive := OMinimax demo_model]>
               (<[2%positive := ODict []]>
                  (<[1%positive := OClient demo_client]> ∅));
     environ := ∅;
     wire := [] |}.

Definition demo_request_world : world :=
  with_heap demo_world
    (<[4%positive := ODict (request_body demo_model [] "x" [])]> (heap demo_world)).

(** Three answers of the remote service, with the body text that
    parses to the JSON value. *)
Definition quoted (s : string) : string :=
  String (Ascii.ascii_of_nat 34) s +:+ String (Ascii.ascii_of_nat 34) "".

Definition hello_world_response : Response :=
  {| ok := true; status_code := 200;
     text := "{" +:+ quoted "base_resp" +:+ ": {" +:+ quoted "status_code"
             +:+ ": 0}, " +:+ quoted "reply" +:+ ": " +:+ quoted "hello world" +:+ "}";
     json := Some (VDict [("base_resp", VDict [("status_code", VInt 0)]);
                          ("reply", VStr "hello world")]) |}.

Definition rate_limited_response : Response :=
  {| ok := true; status_code := 200;
     text := "{" +:+ quoted "base_resp" +:+ ": {" +:+ quoted "status_code"
             +:+ ": 1002, " +:+ quoted "status_msg" +:+ ": "
             +:+ quoted "rate limited" +:+ "}, " +:+ quoted "reply" +:+ ": "
             +:+ quoted "" +:+ "}";
     json := Some (VDict [("base_resp", VDict [("status_code", VInt 1002);
                                               ("status_msg", VStr "rate limited")]);
                          ("reply", VStr "")]) |}.

Definition no_reply_response : Response :=
  {| ok := true; status_code := 200;
     text := "{" +:+ quoted "base_resp" +:+ ": {" +:+ quoted "status_code"
             +:+ ": 0, " +:+ quoted "status_msg" +:+ ": " +:+ quoted "success" +:+ "}}";
     json := Some (VDict [("base_resp", VDict [("status_code", VInt 0);
                                               ("status_msg", VStr "success")])]) |}.


Definition server_error_response : Response :=
  {| ok := false; status_code := 500; text := "Internal Server Error";
     json := None |}.

(** Envelopes off the documented shape: a negative status code, and a
    positive one without its message. *)
Definition negative_code_response : Response :=
  {| ok := true; status_code := 200;
     text := "{" +:+ quoted "base_resp" +:+ ": {" +:+ quoted "status_code"
             +:+ ": -1}, " +:+ quoted "reply" +:+ ": " +:+ quoted "partial" +:+ "}";
     json := Some (VDict [("base_resp", VDict [("status_code", VInt (-1))]);
                          ("reply", VStr "partial")]) |}.

Definition no_status_msg_response : Response :=
  {| ok := true; status_code := 200;
     text := "{" +:+ quoted "base_resp" +:+ ": {" +:+ quoted "status_code"
             +:+ ": 1002}}";
     json := Some (VDict [("base_resp", VDict [("status_code", VInt 1002)])]) |}.

(** The keyword arguments of a client constructor call that passes its
    own URL. *)
Definition proxied_client_values : client_values :=
  {| cv_host := Some "https://api.minimax.chat";
     cv_group_id := Some "my-group-id";
     cv_api_key := Some (Plain "my-api-key");
     cv_api_url := Some (Some "https://proxy.example/minimax") |}.

(** A transport that gives the same answer to every request. *)
Definition answering (response : Response)
    : list http_request → http_request → res Response :=
  λ _ _, Ok response.

(** ** Facts about dicts *)

Section DictFacts.

Implicit Types (k : string) (v : value) (d : dict).




















Lemma same_but_keys k d1 d2 : same_but k d1 d2 → Dict.keys d1 = Dict.keys d2.
Proof.
  unfold same_but.
  induction 1 as [|[k1 v1] [k2 v2] d1 d2 [Hk Hv] _ IH]; simpl in *; congruence.
Qed.


End DictFacts.

(** ** Running the operations *)

Section Runs.

Variable py_str : value → string.
Variable requests_post : list http_request → http_request → res Response.

Lemma instance_in_dom w self m kw c :
  instance_at w self m kw c →
  self ∈ dom (heap w) ∧ model_kwargs m ∈ dom (heap w)
  ∧ ∀ client, _client m = Some client → client ∈ dom (heap w).
Proof.
  intros (H1 & H2 & (client & Hcl & H3) & _). rewrite !elem_of_dom.
  split; [eauto|]. split; [eauto|].
  intros client' Heq. rewrite Hcl in Heq. injection Heq as <-.
  rewrite elem_of_dom. eauto.
Qed.

Lemma fresh_not_allocated w l :
  l ∈ dom (heap w) → l ≠ fresh (dom (heap w)).
Proof. intros Hin ->. by apply (is_fresh (dom (heap w))). Qed.

Lemma _default_params_run w self m kw c :
  instance_at w self m kw c →
  _default_params self w
  = (Ok (fresh (dom (heap w))),
     with_heap w (<[fresh (dom (heap w)) :=
                      ODict (Dict.display (field_params m ++ kw))]> (heap w))).
Proof.
  intros (H1 & H2 & _).
  unfold _default_params, load_minimax, load_dict, load, bind, alloc, ret.
  rewrite H1. simpl. by rewrite H2.
Qed.

(** [post] sends one request and unwraps the answer. *)
Lemma post_run w cl c request body :
  heap w !! cl = Some (OClient c) →
  heap w !! request = Some (ODict body) →
  post py_str requests_post cl request w
  = (r ← requests_post (wire w) (request_of c body); unwrap py_str r,
     with_wire w (wire w ++ [request_of c body])).
Proof.
  intros Hc Hb.
  cbv beta iota zeta delta
    [post load_client load_dict load bind ret send base_resp lift raise].
  rewrite Hc. cbv beta iota. rewrite Hb. cbv beta iota.
  fold (request_of c body).
  destruct (requests_post (wire w) (request_of c body)) as [r|e]; [|done].
  unfold unwrap. simpl. destruct (ok r); [|done]. simpl.
  destruct (response_json r) as [j|]; [|done]. simpl.
  destruct (py_getitem j "base_resp") as [b|]; [|done]. simpl.
  destruct (py_getitem b "status_code") as [code|]; [|done]. simpl.
  destruct (py_gt_zero code) as [[]|]; [|done|done]. simpl.
  destruct (py_getitem b "status_msg") as [msg|]; done.
Qed.

Lemma bind_ok {A B} (mA : M A) (k : A → M B) w a w' :
  mA w = (Ok a, w') → bind mA k w = k a w'.
Proof. unfold bind. by intros ->. Qed.


Lemma load_minimax_run w l m :
  heap w !! l = Some (OMinimax m) → load_minimax l w = (Ok m, w).
Proof. intros H. unfold load_minimax, load, bind. by rewrite H. Qed.

Lemma setitem_run w l d k v :
  heap w !! l = Some (ODict d) →
  setitem l k v w = (Ok (), with_heap w (<[l := ODict (Dict.set k v d)]> (heap w))).
Proof. intros H. unfold setitem, load_dict, load, bind. by rewrite H. Qed.

Lemma update_run w l d other :
  heap w !! l = Some (ODict d) →
  update l other w
  = (Ok (), with_heap w (<[l := ODict (Dict.update d other)]> (heap w))).
Proof. intros H. unfold update, load_dict, load, bind. by rewrite H. Qed.

(** [_call] builds the request in a new dict, posts it, and filters
    the answer when a stop list was passed. *)
Lemma _call_run filter w self m kw c prompt stop kwargs :
  instance_at w self m kw c →
  let body := request_body m kw prompt kwargs in
  _call py_str requests_post filter self prompt stop kwargs w
  = (text ← (r ← requests_post (wire w) (request_of c body); unwrap py_str r);
     match stop with
     | Some stop => filter text stop
     | None => Ok text
     end,
     {| heap := <[fresh (dom (heap w)) := ODict body]> (heap w);
        environ := environ w;
        wire := wire w ++ [request_of c body] |}).
Proof.
  intros Hinst body.
  pose proof (instance_in_dom _ _ _ _ _ Hinst) as (Hs & _ & Hcl).
  pose proof Hinst as (H1 & H2 & (client & Hclient & H3) & Hnd).
  specialize (Hcl client Hclient).
  apply fresh_not_allocated in Hs, Hcl.
  unfold _call.
  erewrite bind_ok by (by eapply _default_params_run).
  set (r := fresh (dom (heap w))) in *.
  erewrite bind_ok
    by (apply setitem_run; cbn [heap with_heap]; apply lookup_insert_eq).
  erewrite bind_ok
    by (apply update_run; cbn [heap with_heap]; apply lookup_insert_eq).
  unfold with_heap. cbn [heap environ wire]. rewrite !insert_insert_eq.
  fold (user_messages prompt). fold (request_body m kw prompt kwargs). fold body.
  erewrite bind_ok
    by (apply load_minimax_run; cbn [heap]; rewrite lookup_insert_ne; eauto).
  rewrite Hclient. erewrite bind_ok by reflexivity.
  unfold bind. erewrite post_run; cycle 1.
  { cbn [heap]. rewrite lookup_insert_ne by done. exact H3. }
  { cbn [heap]. apply lookup_insert_eq. }
  unfold with_wire. cbn [heap environ wire].
  destruct (requests_post (wire w) (request_of c body)) as [resp|e]; [|done].
  simpl. destruct (unwrap py_str resp) as [text|e]; [|done].
  destruct stop; done.
Qed.

End Runs.

Local Ltac demo_instance_holds :=
  split; [vm_compute; reflexivity|];
  split; [vm_compute; reflexivity|];
  split; [exists 1%positive; split; vm_compute; reflexivity | constructor].

Lemma demo_instance : instance_at demo_world 3%positive demo_model [] demo_client.
Proof. demo_instance_holds. Qed.

(** ** Request building *)



Section Requests.

Variable py_str : value → string.
Variable requests_post : list http_request → http_request → res Response.
Variable filter : value → list string → res value.

Local Abbreviation call := (_call py_str requests_post filter).




End Requests.

(** ** Response unwrapping *)

Section Responses.

Variable py_str : value → string.
Variable requests_post : list http_request → http_request → res Response.

(** The world in which [_call] calls [post], and what [post] returns
    there. *)
Lemma _call_post filter w self m kw c prompt stop kwargs client :
  instance_at w self m kw c →
  _client m = Some client →
  let request := fresh (dom (heap w)) in
  let w1 := with_heap w (<[request := ODict (request_body m kw prompt kwargs)]> (heap w)) in
  (_call py_str requests_post filter self prompt stop kwargs w).1
  = (text ← (post py_str requests_post client request w1).1;
     match stop with
     | Some stop => filter text stop
     | None => Ok text
     end).
Proof.
  intros Hinst Hclient request w1.
  pose proof (instance_in_dom _ _ _ _ _ Hinst) as (_ & _ & Hcl).
  specialize (Hcl client Hclient). apply fresh_not_allocated in Hcl.
  destruct Hinst as (H1 & H2 & (client' & Hclient' & H3) & Hnd).
  rewrite Hclient in Hclient'. injection Hclient' as <-.
  rewrite (_call_run py_str requests_post filter w self m kw c).
  2:{ split; [done|]. split; [done|]. split; [eauto|done]. }
  rewrite (post_run py_str requests_post w1 client c request
             (request_body m kw prompt kwargs)).
  - done.
  - subst w1. cbn [heap with_heap]. by rewrite lookup_insert_ne.
  - subst w1. cbn [heap with_heap]. apply lookup_insert_eq.
Qed.

Lemma py_getitem_raises v key e :
  py_getitem v key = Raise e → e = KeyError key ∨ ∃ what, e = TypeError what.
Proof.
  destruct v as [| | | | | |d]; simpl; try (intros [= <-]; right; by eexists).
  destruct (Dict.get key d); [done|]. intros [= <-]. by left.
Qed.

Lemma py_gt_zero_raises v e :
  py_gt_zero v = Raise e → ∃ what, e = TypeError what.
Proof. destruct v; simpl; try done; intros [= <-]; by eexists. Qed.

(** C2, as the code has it: when the transport delivers a response,
    [post] raises the HTTP [ValueError] with the status code and the
    raw body text if the response is not [ok].  For an [ok] response
    with an integer [base_resp.status_code]: if the code is greater
    than zero and [status_msg] is there, [post] raises the API
    [ValueError] with that code and message, without looking at
    [reply]; if the code is zero or less and [reply] is there, it
    returns the reply, without looking at [status_msg].  Every other
    failure is the failure of a step that reads the body: the decode
    error, the [KeyError] of one of the four keys read, or a
    [TypeError]; the API error occurs only for a code greater than
    zero.  Whatever [post] raises, [_call] raises unchanged. *)
Theorem post_error_channel w cl c request body response :
  (∀ z, py_str (VInt z) = pretty z) →
  (∀ s, py_str (VStr s) = s) →
  heap w !! cl = Some (OClient c) →
  heap w !! request = Some (ODict body) →
  requests_post (wire w) (request_of c body) = Ok response →
  let posted := (post py_str requests_post cl request w).1 in
  (ok response = false →
   posted = Raise (TransportError (status_code response) (text response)))
  ∧ (∀ j b code msg,
       ok response = true →
       json response = Some j →
       py_getitem j "base_resp" = Ok b →
       py_getitem b "status_code" = Ok (VInt code) →
       0 < code →
       py_getitem b "status_msg" = Ok msg →
       posted = Raise (ApplicationError (pretty code) (py_str msg))
       ∧ ∀ s, msg = VStr s → posted = Raise (ApplicationError (pretty code) s))
  ∧ (∀ j b code reply,
       ok response = true →
       json response = Some j →
       py_getitem j "base_resp" = Ok b →
       py_getitem b "status_code" = Ok (VInt code) →
       code ≤ 0 →
       py_getitem j "reply" = Ok reply →
       posted = Ok reply)
  ∧ (∀ e, posted = Raise e →
       (ok response = false
        ∧ e = TransportError (status_code response) (text response))
       ∨ (ok response = true
          ∧ (e = JSONDecodeError
             ∨ (∃ key, key ∈ ["base_resp"; "status_code"; "status_msg"; "reply"]
                       ∧ e = KeyError key)
             ∨ (∃ what, e = TypeError what)
             ∨ (∃ j b code msg,
                  json response = Some j
                  ∧ py_getitem j "base_resp" = Ok b
                  ∧ py_getitem b "status_code" = Ok code
                  ∧ py_gt_zero code = Ok true
                  ∧ py_getitem b "status_msg" = Ok msg
                  ∧ e = ApplicationError (py_str code) (py_str msg)))))
  ∧ (∀ filter w0 self m kw c0 client prompt stop kwargs e,
       instance_at w0 self m kw c0 →
       _client m = Some client →
       (post py_str requests_post client (fresh (dom (heap w0)))
          (with_heap w0 (<[fresh (dom (heap w0)) :=
                             ODict (request_body m kw prompt kwargs)]> (heap w0)))).1
       = Raise e →
       (_call py_str requests_post filter self prompt stop kwargs w0).1 = Raise e).
Proof.
  intros Hint Hstr Hc Hb Hnet posted. subst posted.
  rewrite (post_run py_str requests_post w cl c request body) by done.
  rewrite Hnet. cbn [fst mbind res_bind]. unfold unwrap.
  split; [|split; [|split; [|split]]].
  - by intros ->.
  - intros j b code msg -> Hj Hbase Hcode Hpos Hmsg.
    unfold response_json. rewrite Hj. cbn [mbind res_bind].
    rewrite Hbase. cbn [mbind res_bind]. rewrite Hcode. cbn [mbind res_bind py_gt_zero].
    apply Z.ltb_lt in Hpos. rewrite Hpos, Hmsg. cbn [mbind res_bind].
    rewrite Hint. split; [done|]. intros s ->. by rewrite Hstr.
  - intros j b code reply -> Hj Hbase Hcode Hle Hreply.
    unfold response_json. rewrite Hj. cbn [mbind res_bind].
    rewrite Hbase. cbn [mbind res_bind]. rewrite Hcode. cbn [mbind res_bind py_gt_zero].
    apply Z.ltb_ge in Hle. by rewrite Hle.
  - intros e. destruct (ok response); [|intros [= <-]; by left].
    intros He. right. split; [done|]. revert He. unfold response_json.
    destruct (json response) as [j|]; cbn [mbind res_bind]; [|intros [= <-]; by left].
    destruct (py_getitem j "base_resp") as [b|e0] eqn:Hbase; cbn [mbind res_bind].
    2:{ intros [= <-]. destruct (py_getitem_raises _ _ _ Hbase) as [->|?]; [|by auto].
        right; left. exists "base_resp". split; [|done]. apply elem_of_cons; by left. }
    destruct (py_getitem b "status_code") as [code|e0] eqn:Hcode; cbn [mbind res_bind].
    2:{ intros [= <-]. destruct (py_getitem_raises _ _ _ Hcode) as [->|?]; [|by auto].
        right; left. exists "status_code". split; [|done].
        rewrite !elem_of_cons. auto. }
    destruct (py_gt_zero code) as [[]|e0] eqn:Hgt; cbn [mbind res_bind].
    3:{ intros [= <-]. destruct (py_gt_zero_raises _ _ Hgt) as [what ->]. eauto. }
    + destruct (py_getitem b "status_msg") as [msg|e0] eqn:Hmsg; cbn [mbind res_bind].
      * intros [= <-]. do 3 right. by exists j, b, code, msg.
      * intros [= <-]. destruct (py_getitem_raises _ _ _ Hmsg) as [->|?]; [|by auto].
        right; left. exists "status_msg". split; [|done]. rewrite !elem_of_cons. auto.
    + intros Hreply. destruct (py_getitem_raises _ _ _ Hreply) as [->|?]; [|by auto].
      right; left. exists "reply". split; [|done]. rewrite !elem_of_cons. auto.
  - intros filter w0 self m kw c0 client prompt stop kwargs e Hinst Hclient Hraise.
    rewrite (_call_post filter w0 self m kw c0 prompt stop kwargs client) by done.
    by rewrite Hraise.
Qed.


End Responses.

Local Ltac demo_holds :=
  first [ reflexivity
        | vm_compute; reflexivity
        | intros; reflexivity
        | demo_instance_holds ].

Lemma post_error_channel_witness :
  (post str_of_scalar (answering server_error_response) 1%positive 4%positive
     demo_request_world).1
  = Raise (ValueError "HTTP 500 error: Internal Server Error")
  ∧ (post str_of_scalar (answering rate_limited_response) 1%positive 4%positive
       demo_request_world).1
    = Raise (ValueError "API 1002 error: rate limited").
Proof.
  split.
  - apply (post_error_channel str_of_scalar (answering server_error_response)
             demo_request_world 1%positive demo_client 4%positive
             (request_body demo_model [] "x" []) server_error_response);
      demo_holds.
  - refine (proj2 (proj1 (proj2 (post_error_channel str_of_scalar
             (answering rate_limited_response)
             demo_request_world 1%positive demo_client 4%positive
             (request_body demo_model [] "x" []) rate_limited_response
             _ _ _ _ _))
             (VDict [("base_resp", VDict [("status_code", VInt 1002);
                                          ("status_msg", VStr "rate limited")]);
                     ("reply", VStr "")])
             (VDict [("status_code", VInt 1002); ("status_msg", VStr "rate limited")])
             1002 (VStr "rate limited") _ _ _ _ _ _) "rate limited" _);
      demo_holds.
Defined.

(** C2 as stated fails: an [ok] response whose body has a
    [base_resp.status_code] of zero and no [reply] makes [post], and
    with it [_call], raise a [KeyError], which is neither of the two
    [ValueError]s. *)
Lemma post_missing_reply_raises_KeyError :
  let posted :=
    (post str_of_scalar (answering no_reply_response) 1%positive 4%positive
       demo_request_world).1 in
  ok no_reply_response = true
  ∧ posted = Raise (KeyError "reply")
  ∧ (∀ code body, posted ≠ Raise (TransportError code body))
  ∧ (∀ code msg, posted ≠ Raise (ApplicationError code msg))
  ∧ (_call str_of_scalar (answering no_reply_response) enforce_stop_tokens
       3%positive "x" None [] demo_world).1
    = Raise (KeyError "reply").
Proof.
  assert (H : (post str_of_scalar (answering no_reply_response) 1%positive
                 4%positive demo_request_world).1 = Raise (KeyError "reply"))
    by (vm_compute; reflexivity).
  cbv zeta. rewrite H.
  split; [reflexivity|]. split; [reflexivity|].
  split; [intros code body; unfold TransportError; discriminate|].
  split; [intros code msg; unfold ApplicationError; discriminate|].
  vm_compute; reflexivity.
Qed.







(** ** Construction *)

Lemma get_from_dict_or_env_run {A} (of_env : string → A) explicit key env_key dflt w :
  get_from_dict_or_env of_env explicit key env_key dflt w
  = (match resolved of_env explicit (environ w !! env_key), dflt with
     | Some v, _ => Ok v
     | None, Some v => Ok v
     | None, None => Raise (ConfigurationError key env_key)
     end, w).
Proof.
  unfold get_from_dict_or_env, resolved, getenv, bind, ret, raise.
  destruct explicit; [done|]. simpl.
  destruct (environ w !! env_key); [done|]. by destruct dflt.
Qed.


Lemma get_from_dict_or_env_default {A} (of_env : string → A) explicit key env_key d w :
  get_from_dict_or_env of_env explicit key env_key (Some d) w
  = (Ok (default d (resolved of_env explicit (environ w !! env_key))), w).
Proof.
  rewrite get_from_dict_or_env_run.
  by destruct (resolved of_env explicit (environ w !! env_key)).
Qed.

Lemma secret_str_eta k :
  convert_to_secret_str k
  = {| get_secret_value :=
         match k with Plain s => s | Secret s => get_secret_value s end |}.
Proof. by destruct k as [s|[s]]. Qed.

Lemma validate_environment_run kw w k g :
  resolved Plain (kw_minimax_api_key kw) (environ w !! "MINIMAX_API_KEY") = Some k →
  resolved id (kw_minimax_group_id kw) (environ w !! "MINIMAX_GROUP_ID") = Some g →
  let api_host :=
    default "https://api.minimax.chat"
      (resolved id (kw_minimax_api_host kw) (environ w !! "MINIMAX_API_HOST")) in
  let client := fresh (dom (heap w)) in
  validate_environment (pre_init kw) w
  = (Ok {| val_model := default "abab5.5-chat" (kw_model kw);
           val_max_tokens := default 256 (kw_max_tokens kw);
           val_temperature := default (7 # 10)%Q (kw_temperature kw);
           val_top_p := default (95 # 100)%Q (kw_top_p kw);
           val_model_kwargs := default [] (kw_model_kwargs kw);
           val_minimax_api_host := Some api_host;
           val_minimax_group_id := Some g;
           val_minimax_api_key := Some (Secret (convert_to_secret_str k));
           val__client := Some client |},
     with_heap w (<[client := OClient
        {| host := api_host; group_id := g;
           api_key := convert_to_secret_str k;
           api_url := api_host +:+ "/v1/text/chatcompletion?GroupId=" +:+ g |}]>
        (heap w))).
Proof.
  intros Hkey Hgroup api_host client.
  unfold validate_environment, pre_init. simpl.
  erewrite bind_ok by (rewrite get_from_dict_or_env_run, Hkey; reflexivity).
  erewrite bind_ok by (rewrite get_from_dict_or_env_run, Hgroup; reflexivity).
  erewrite bind_ok by apply get_from_dict_or_env_default.
  reflexivity.
Qed.

(** What a successful construction leaves in the store: the client
    that the validator made, the [model_kwargs] dict and the instance,
    whose [_client] is unset. *)
Lemma new_Minimax_run kw w k g :
  resolved Plain (kw_minimax_api_key kw) (environ w !! "MINIMAX_API_KEY") = Some k →
  resolved id (kw_minimax_group_id kw) (environ w !! "MINIMAX_GROUP_ID") = Some g →
  let api_host :=
    default "https://api.minimax.chat"
      (resolved id (kw_minimax_api_host kw) (environ w !! "MINIMAX_API_HOST")) in
  let client := fresh (dom (heap w)) in
  let h1 := <[client := OClient
               {| host := api_host; group_id := g;
                  api_key := convert_to_secret_str k;
                  api_url := api_host +:+ "/v1/text/chatcompletion?GroupId=" +:+ g |}]>
              (heap w) in
  let kwargs := fresh (dom h1) in
  let h2 := <[kwargs := ODict (default [] (kw_model_kwargs kw))]> h1 in
  let self := fresh (dom h2) in
  new_Minimax kw w
  = (Ok self,
     with_heap w
       (<[self := OMinimax
            {| _client := None;
               model := default "abab5.5-chat" (kw_model kw);
               max_tokens := default 256 (kw_max_tokens kw);
               temperature := default (7 # 10)%Q (kw_temperature kw);
               top_p := default (95 # 100)%Q (kw_top_p kw);
               model_kwargs := kwargs;
               minimax_api_host := Some api_host;
               minimax_group_id := Some g;
               minimax_api_key := Some (convert_to_secret_str k) |}]> h2))
  ∧ NoDup [self; kwargs; client]
  ∧ (∀ l, l ∈ [self; kwargs; client] → l ∉ dom (heap w)).
Proof.
  intros Hkey Hgroup api_host client h1 kwargs h2 self.
  assert (H1 : client ∉ dom (heap w)) by apply is_fresh.
  assert (H2 : kwargs ∉ dom h1) by apply is_fresh.
  assert (H3 : self ∉ dom h2) by apply is_fresh.
  unfold h2 in H3. rewrite dom_insert_L in H3. unfold h1 in H2, H3.
  rewrite dom_insert_L in H2, H3.
  apply not_elem_of_union in H2 as [H21%not_elem_of_singleton H2].
  apply not_elem_of_union in H3 as [H32%not_elem_of_singleton H3].
  apply not_elem_of_union in H3 as [H31%not_elem_of_singleton H3].
  split; [|split].
  - unfold new_Minimax.
    erewrite bind_ok by (by apply validate_environment_run).
    erewrite bind_ok by reflexivity. reflexivity.
  - apply NoDup_cons. split; [rewrite !not_elem_of_cons, elem_of_nil; tauto|].
    apply NoDup_cons. split; [rewrite !not_elem_of_cons, elem_of_nil; tauto|].
    apply NoDup_singleton.
  - intros l Hl. rewrite !elem_of_cons, elem_of_nil in Hl.
    destruct Hl as [->|[->|[->|[]]]]; done.
Qed.



(** ** Stop-token truncation *)

Section StopTokens.

Implicit Types (s text : string) (stop : list string) (i j : nat).






Lemma substring_length_le n text :
  (String.length (String.substring 0 n text) ≤ n)%nat.
Proof.
  revert n. induction text as [|a text IH]; intros [|n]; simpl; try lia.
  specialize (IH n). lia.
Qed.


End StopTokens.





(** ** Further properties of the dict operations *)

Section DictOrder.

Implicit Types (k : string) (v : value) (d : dict).








End DictOrder.

(** ** The client on its own *)

Section ClientProperties.

Variable py_str : value → string.
Variable requests_post : list http_request → http_request → res Response.

(** X1: a client built with an [api_url] of its own posts to that
    URL, whatever its host and group id are; built without the
    [api_url] key it posts to
    [{host}/v1/text/chatcompletion?GroupId={group_id}].  Without the
    [api_url] key a missing [host], and then a missing [group_id],
    raises the [KeyError] of the validator's lookup and no client is
    made; [api_url=None] is a key that is present, so the validator
    leaves it and validation refuses it.  Running the validator on its
    own result changes nothing. *)
Theorem client_posts_to_its_url values w :
  (∀ request body host0 group0 key0 url,
     heap w !! request = Some (ODict body) →
     cv_host values = Some host0 →
     cv_group_id values = Some group0 →
     cv_api_key values = Some key0 →
     cv_api_url values = Some (Some url)
     ∨ (cv_api_url values = None
        ∧ url = host0 +:+ "/v1/text/chatcompletion?GroupId=" +:+ group0) →
     let secret := match key0 with Plain s => s | Secret s => get_secret_value s end in
     (∃ cl, new_MinimaxEndpointClient values w
            = (Ok cl, with_heap w (<[cl := OClient
                 {| host := host0; group_id := group0;
                    api_key := {| get_secret_value := secret |};
                    api_url := url |}]> (heap w)))
            ∧ cl ∉ dom (heap w))
     ∧ wire ((cl <- new_MinimaxEndpointClient values ;;
              post py_str requests_post cl request) w).2
       = wire w ++ [{| req_url := url;
                       req_headers := [("Authorization", "Bearer " +:+ secret)];
                       req_json := body |}])
  ∧ (cv_api_url values = None → cv_host values = None →
     new_MinimaxEndpointClient values w = (Raise (KeyError "host"), w))
  ∧ (cv_api_url values = None → is_Some (cv_host values) →
     cv_group_id values = None →
     new_MinimaxEndpointClient values w = (Raise (KeyError "group_id"), w))
  ∧ (cv_api_url values = Some None →
     ∃ fields, new_MinimaxEndpointClient values w = (Raise (ValidationError fields), w)
               ∧ "api_url" ∈ fields)
  ∧ (∀ values', set_api_url values = Ok values' → set_api_url values' = Ok values').
Proof.
  split; [|split; [|split; [|split]]].
  - intros request body host0 group0 key0 url Hb Hh Hg Hk Hurl secret.
    assert (Hnew : new_MinimaxEndpointClient values w
      = (Ok (fresh (dom (heap w))),
         with_heap w (<[fresh (dom (heap w)) := OClient
           {| host := host0; group_id := group0;
              api_key := {| get_secret_value := secret |};
              api_url := url |}]> (heap w)))).
    { subst secret. rewrite <- secret_str_eta.
      unfold new_MinimaxEndpointClient, set_api_url.
      destruct Hurl as [Hu|[Hu ->]]; rewrite Hu; [|rewrite Hh, Hg];
        (erewrite bind_ok by reflexivity); cbn [cv_host cv_group_id cv_api_key cv_api_url];
        rewrite ?Hh, ?Hg, ?Hk, ?Hu; reflexivity. }
    split.
    + eexists. split; [exact Hnew | apply is_fresh].
    + erewrite bind_ok by exact Hnew.
      erewrite post_run; cycle 1.
      { cbn [heap with_heap]. apply lookup_insert_eq. }
      { cbn [heap with_heap]. rewrite lookup_insert_ne; [exact Hb|].
        apply not_eq_sym, fresh_not_allocated, elem_of_dom. eauto. }
      reflexivity.
  - intros Hu Hh. unfold new_MinimaxEndpointClient, set_api_url.
    by rewrite Hu, Hh.
  - intros Hu [h Hh] Hg. unfold new_MinimaxEndpointClient, set_api_url.
    by rewrite Hu, Hh, Hg.
  - intros Hu. unfold new_MinimaxEndpointClient, set_api_url. rewrite Hu.
    erewrite bind_ok by reflexivity. rewrite Hu.
    exists (invalid_client_fields values). split.
    + by destruct (cv_host values), (cv_group_id values), (cv_api_key values).
    + unfold invalid_client_fields. rewrite Hu.
      rewrite !elem_of_app, list_elem_of_singleton. auto.
  - intros values'. unfold set_api_url.
    destruct (cv_api_url values) eqn:Hu.
    + intros [= <-]. by rewrite Hu.
    + destruct (cv_host values); [|done]. destruct (cv_group_id values); [|done].
      by intros [= <-].
Qed.

(** X2: every invocation of [post] puts exactly one request on the
    wire, addressed to the client's [api_url], with the bearer header
    and the request dict as it stands, and changes nothing else: the
    store and the environment are as before, whether [post] returns or
    raises.  When the transport itself raises, [post] raises the
    same. *)
Theorem post_sends_one_request w cl c request body :
  heap w !! cl = Some (OClient c) →
  heap w !! request = Some (ODict body) →
  let run := post py_str requests_post cl request w in
  heap run.2 = heap w
  ∧ environ run.2 = environ w
  ∧ wire run.2
    = wire w ++ [{| req_url := api_url c;
                    req_headers :=
                      [("Authorization", "Bearer " +:+ get_secret_value (api_key c))];
                    req_json := body |}]
  ∧ (∀ e, requests_post (wire w) (request_of c body) = Raise e → run.1 = Raise e).
Proof.
  intros Hc Hb run. subst run.
  rewrite (post_run py_str requests_post w cl c request body) by done.
  repeat split. intros e He. cbn [fst]. by rewrite He.
Qed.

(** X3: an [ok] response whose body is off the envelope makes [post]
    raise the error of the first step that fails, and never the API
    error: a body that is not JSON gives the decode error; a JSON object
    without [base_resp], or a [base_resp] without [status_code], the
    [KeyError] of that key; a [status_code] that is a string a
    [TypeError]; a positive code without [status_msg] the [KeyError] of
    [status_msg]; a code that is not positive without [reply] the
    [KeyError] of [reply]. *)
Theorem post_malformed_envelope w cl c request body response :
  heap w !! cl = Some (OClient c) →
  heap w !! request = Some (ODict body) →
  requests_post (wire w) (request_of c body) = Ok response →
  ok response = true →
  let posted := (post py_str requests_post cl request w).1 in
  (json response = None → posted = Raise JSONDecodeError)
  ∧ (∀ d, json response = Some (VDict d) →
       Dict.get "base_resp" d = None → posted = Raise (KeyError "base_resp"))
  ∧ (∀ d b, json response = Some (VDict d) →
       Dict.get "base_resp" d = Some (VDict b) →
       (Dict.get "status_code" b = None → posted = Raise (KeyError "status_code"))
       ∧ (∀ s, Dict.get "status_code" b = Some (VStr s) →
               posted = Raise (TypeError ">"))
       ∧ (∀ code, Dict.get "status_code" b = Some (VInt code) → 0 < code →
               Dict.get "status_msg" b = None →
               posted = Raise (KeyError "status_msg"))
       ∧ (∀ code, Dict.get "status_code" b = Some (VInt code) → code ≤ 0 →
               Dict.get "reply" d = None →
               posted = Raise (KeyError "reply"))).
Proof.
  intros Hc Hb Hnet Hok posted. subst posted.
  rewrite (post_run py_str requests_post w cl c request body) by done.
  rewrite Hnet. cbn [fst mbind res_bind]. unfold unwrap, response_json.
  rewrite Hok. split; [|split].
  - by intros ->.
  - intros d -> Hbase. cbn [mbind res_bind py_getitem]. by rewrite Hbase.
  - intros d b -> Hbase. cbn [mbind res_bind py_getitem]. rewrite Hbase.
    cbn [mbind res_bind py_getitem]. repeat split.
    + by intros ->.
    + by intros s ->.
    + intros code -> Hpos Hmsg. cbn [mbind res_bind py_gt_zero].
      apply Z.ltb_lt in Hpos. rewrite Hpos. cbn [mbind res_bind py_getitem].
      by rewrite Hmsg.
    + intros code -> Hle Hreply. cbn [mbind res_bind py_gt_zero].
      apply Z.ltb_ge in Hle. rewrite Hle. by rewrite Hreply.
Qed.

(** X4: [post] tests the status code against zero with [>], so every
    code that is not positive counts as success: for an [ok] response
    with an integer [base_resp.status_code] of zero or less, [post]
    returns the value under [reply], and it does not look at
    [status_msg]. *)
Theorem post_nonpositive_code_is_success w cl c request body response j b code reply :
  heap w !! cl = Some (OClient c) →
  heap w !! request = Some (ODict body) →
  requests_post (wire w) (request_of c body) = Ok response →
  ok response = true →
  json response = Some j →
  py_getitem j "base_resp" = Ok b →
  py_getitem b "status_code" = Ok (VInt code) →
  code ≤ 0 →
  py_getitem j "reply" = Ok reply →
  (post py_str requests_post cl request w).1 = Ok reply.
Proof.
  intros Hc Hb Hnet Hok Hj Hbase Hcode Hle Hreply.
  rewrite (post_run py_str requests_post w cl c request body) by done.
  rewrite Hnet. cbn [fst mbind res_bind]. unfold unwrap, response_json.
  rewrite Hok, Hj. cbn [mbind res_bind]. rewrite Hbase. cbn [mbind res_bind].
  rewrite Hcode. cbn [mbind res_bind py_gt_zero].
  apply Z.ltb_ge in Hle. by rewrite Hle.
Qed.

End ClientProperties.

Lemma client_posts_to_its_url_witness :
  wire ((cl <- new_MinimaxEndpointClient proxied_client_values ;;
         post str_of_scalar (answering hello_world_response) cl 4%positive)
          demo_request_world).2
  = [{| req_url := "https://proxy.example/minimax";
        req_headers := [("Authorization", "Bearer my-api-key")];
        req_json := request_body demo_model [] "x" [] |}].
Proof.
  assert (Hb : heap demo_request_world !! 4%positive
               = Some (ODict (request_body demo_model [] "x" [])))
    by (vm_compute; reflexivity).
  pose proof (proj1 (client_posts_to_its_url str_of_scalar
                (answering hello_world_response) proxied_client_values
                demo_request_world)
                4%positive (request_body demo_model [] "x" [])
                "https://api.minimax.chat" "my-group-id" (Plain "my-api-key")
                "https://proxy.example/minimax" Hb eq_refl eq_refl eq_refl
                (or_introl eq_refl)) as (_ & Hw).
  rewrite Hw. reflexivity.
Defined.

Lemma post_malformed_envelope_witness :
  (post str_of_scalar (answering no_status_msg_response) 1%positive 4%positive
     demo_request_world).1
  = Raise (KeyError "status_msg").
Proof.
  refine (proj1 (proj2 (proj2 (proj2 (proj2 (post_malformed_envelope
    str_of_scalar (answering no_status_msg_response)
    demo_request_world 1%positive demo_client 4%positive
    (request_body demo_model [] "x" []) no_status_msg_response _ _ _ _))
    [("base_resp", VDict [("status_code", VInt 1002)])]
    [("status_code", VInt 1002)] _ _))) 1002 _ _ _); demo_holds.
Defined.

Lemma post_sends_one_request_witness :
  wire (post str_of_scalar (answering server_error_response) 1%positive 4%positive
          demo_request_world).2
  = [request_of demo_client (request_body demo_model [] "x" [])].
Proof.
  refine (proj1 (proj2 (proj2 (post_sends_one_request str_of_scalar
    (answering server_error_response) demo_request_world 1%positive demo_client
    4%positive (request_body demo_model [] "x" []) _ _)))); demo_holds.
Defined.

Lemma post_nonpositive_code_is_success_witness :
  (post str_of_scalar (answering negative_code_response) 1%positive 4%positive
     demo_request_world).1
  = Ok (VStr "partial").
Proof.
  refine (post_nonpositive_code_is_success str_of_scalar
    (answering negative_code_response) demo_request_world 1%positive demo_client
    4%positive (request_body demo_model [] "x" []) negative_code_response
    (VDict [("base_resp", VDict [("status_code", VInt (-1))]);
            ("reply", VStr "partial")])
    (VDict [("status_code", VInt (-1))]) (-1) (VStr "partial")
    _ _ _ _ _ _ _ _ _); first [lia | demo_holds].
Defined.

(** ** The adapter's parameter dicts *)

Lemma heap_with_heap w h : heap (with_heap w h) = h.
Proof. reflexivity. Qed.

Lemma with_heap_twice w h h' : with_heap (with_heap w h) h' = with_heap w h'.
Proof. reflexivity. Qed.








(** ** The request on the wire *)

Section WireProperties.

Variable py_str : value → string.
Variable requests_post : list http_request → http_request → res Response.
Variable filter : value → list string → res value.

Local Abbreviation call := (_call py_str requests_post filter).



End WireProperties.



(** ** From construction to the call *)

Lemma _default_params_run_fields w self m kw :
  heap w !! self = Some (OMinimax m) →
  heap w !! model_kwargs m = Some (ODict kw) →
  _default_params self w
  = (Ok (fresh (dom (heap w))),
     with_heap w (<[fresh (dom (heap w)) :=
                      ODict (Dict.display (field_params m ++ kw))]> (heap w))).
Proof.
  intros H1 H2.
  unfold _default_params, load_minimax, load_dict, load, bind, alloc, ret.
  rewrite H1. simpl. by rewrite H2.
Qed.

(** [_call] on an instance whose [_client] is unset: the request dict
    is built, then reading [self._client] raises, before anything is
    sent. *)
Lemma _call_without_client py_str requests_post filter w self m kw prompt stop kwargs :
  heap w !! self = Some (OMinimax m) →
  heap w !! model_kwargs m = Some (ODict kw) →
  _client m = None →
  _call py_str requests_post filter self prompt stop kwargs w
  = (Raise (AttributeError "_client"),
     with_heap w (<[fresh (dom (heap w)) :=
                      ODict (request_body m kw prompt kwargs)]> (heap w))).
Proof.
  intros H1 H2 Hnone.
  assert (Hs : self ≠ fresh (dom (heap w))).
  { apply fresh_not_allocated, elem_of_dom. eauto. }
  unfold _call.
  erewrite bind_ok by (by apply _default_params_run_fields).
  erewrite bind_ok
    by (apply setitem_run; cbn [heap with_heap]; apply lookup_insert_eq).
  erewrite bind_ok
    by (apply update_run; cbn [heap with_heap]; apply lookup_insert_eq).
  rewrite !with_heap_twice, !heap_with_heap, !insert_insert_eq.
  erewrite bind_ok
    by (apply load_minimax_run; cbn [heap with_heap];
        rewrite lookup_insert_ne; eauto).
  rewrite Hnone. reflexivity.
Qed.

(** X9: an instance cannot be called straight after construction.
    Construction leaves [_client] unset, so [_call] builds its request
    dict and then fails at [self._client] with an [AttributeError]:
    nothing is put on the wire, whatever the prompt, the stop list, the
    keyword arguments and the transport, and the environment is as
    before. *)
Theorem construct_then_call py_str requests_post filter kw w prompt stop kwargs k g :
  resolved Plain (kw_minimax_api_key kw) (environ w !! "MINIMAX_API_KEY") = Some k →
  resolved id (kw_minimax_group_id kw) (environ w !! "MINIMAX_GROUP_ID") = Some g →
  let run :=
    (self <- new_Minimax kw ;;
     _call py_str requests_post filter self prompt stop kwargs) w in
  run.1 = Raise (AttributeError "_client")
  ∧ wire run.2 = wire w
  ∧ environ run.2 = environ w.
Proof.
  intros Hkey Hgroup run.
  destruct (new_Minimax_run kw w k g Hkey Hgroup) as (Hnew & Hnd & _).
  apply NoDup_cons in Hnd as [Hself _].
  apply not_elem_of_cons in Hself as [Hsk _].
  subst run. erewrite bind_ok by exact Hnew.
  erewrite _call_without_client; [done|..].
  - cbn [heap with_heap]. apply lookup_insert_eq.
  - cbn [heap with_heap model_kwargs]. rewrite lookup_insert_ne by done.
    apply lookup_insert_eq.
  - reflexivity.
Qed.

Lemma construct_then_call_witness :
  let run :=
    (self <- new_Minimax demo_kwargs ;;
     _call str_of_scalar (answering hello_world_response) enforce_stop_tokens
       self "x" None []) empty_world in
  run.1 = Raise (AttributeError "_client") ∧ wire run.2 = [].
Proof.
  pose proof (construct_then_call str_of_scalar (answering hello_world_response)
                enforce_stop_tokens demo_kwargs empty_world "x" None []
                (Plain "my-api-key") "my-group-id" eq_refl eq_refl)
    as (Hres & Hwire & _).
  split; [exact Hres | exact Hwire].
Defined.
